(** * Roving tab index of a grid cell ([useRovingTabIndex])

    A shallow embedding of the hook [useRovingTabIndex] of the data grid
    (WAI-ARIA "roving tabindex"), of the part of the DOM its focus handler
    touches, and of the way the rendering framework evaluates a hook that
    updates its own state while it renders; and of the list code of the
    demo routes: row reordering, the columns of the million-cell grid, and
    the sorting and summary row of the common-features grid. *)

From Stdlib Require Import String Ascii ZArith List Bool DecimalString.
From Stdlib Require Import DecimalNat FinFun Permutation Lia.
From Stdlib Require DecimalFacts.
From ExtLib Require Import Structures.Monad Structures.MonadState.
From ExtLib Require Import Data.Monads.StateMonad.
Import ListNotations.
Import MonadNotation.
Local Open Scope monad_scope.
Local Open Scope string_scope.
Local Open Scope Z_scope.

(** ** The DOM the focus handler works on *)

Module Dom.

(** An element: its identity, its tag, its content attributes in source
    order, and its children in tree order. *)
#[warnings="-register-all"]
Inductive Element : Type :=
  mkElement (nodeId : nat) (tagName : string)
            (attributes : list (string * string)) (childNodes : list Element).

Definition nodeId (e : Element) : nat :=
  match e with mkElement i _ _ _ => i end.

Definition tagName (e : Element) : string :=
  match e with mkElement _ t _ _ => t end.

Definition attributes (e : Element) : list (string * string) :=
  match e with mkElement _ _ a _ => a end.

Definition childNodes (e : Element) : list Element :=
  match e with mkElement _ _ _ c => c end.

(** [getAttribute]: the value of the first attribute of that name, [None]
    (null) when the element has none. *)
Fixpoint lookupAttribute (name : string) (attrs : list (string * string))
  : option string :=
  match attrs with
  | [] => None
  | (n, v) :: rest => if String.eqb n name then Some v else lookupAttribute name rest
  end.

Definition getAttribute (e : Element) (name : string) : option string :=
  lookupAttribute name (attributes e).

(** The descendants of an element in tree order (preorder, depth first);
    the element itself is not one of them. *)
Fixpoint descendants (e : Element) : list Element :=
  match e with
  | mkElement _ _ _ children =>
      flat_map (fun c => c :: descendants c) children
  end.

(** The selectors the grid uses here: the attribute selector
    [[name="value"]]. *)
Inductive Selector : Type :=
  | AttrEquals (name value : string).

Definition option_string_eqb (a : option string) (b : string) : bool :=
  match a with
  | Some v => String.eqb v b
  | None => false
  end.

Definition matches (sel : Selector) (e : Element) : bool :=
  match sel with
  | AttrEquals name value => option_string_eqb (getAttribute e name) value
  end.

(** [root.querySelector(sel)]: the first descendant of [root], in tree
    order, that matches; [None] is JavaScript's [null]. *)
Definition querySelector (root : Element) (sel : Selector) : option Element :=
  find (matches sel) (descendants root).

(** What the element's own attributes say against focusing it: a disabled
    form control, an element that is hidden or inert, and a hidden input
    are no focusable areas. *)
Definition hasAttribute (e : Element) (name : string) : bool :=
  match getAttribute e name with
  | Some _ => true
  | None => false
  end.

Definition formControls : list string :=
  ["button"; "input"; "select"; "textarea"; "optgroup"; "option"; "fieldset"].

Definition actuallyDisabled (e : Element) : bool :=
  hasAttribute e "disabled" && existsb (String.eqb (tagName e)) formControls.

Definition hiddenInput (e : Element) : bool :=
  String.eqb (tagName e) "input"
  && option_string_eqb (getAttribute e "type") "hidden".

Definition focusable (e : Element) : bool :=
  negb (actuallyDisabled e) && negb (hasAttribute e "hidden")
  && negb (hasAttribute e "inert") && negb (hiddenInput e).

(** The page, as far as focus goes: the focused element, the elements a
    call of [focus] made the browser scroll into view (latest first), and
    the elements the browser cannot focus for a reason that is not in their
    own attributes (not rendered by a style or under a hidden, inert or
    disabled ancestor, or no focusable area at all). *)
Record Document : Type := mkDocument {
  activeElement : option nat;
  scrolledIntoView : list nat;
  unfocusable : list nat
}.

(** Whether [el.focus()] can move the focus to [el] on this page. *)
Definition canFocus (d : Document) (el : Element) : bool :=
  focusable el && negb (existsb (Nat.eqb (nodeId el)) (unfocusable d)).

Record FocusOptions : Type := mkFocusOptions { preventScroll : bool }.

(** [el.focus(options)]: when the browser can focus the element it becomes
    the active element, and is scrolled into view unless [preventScroll] is
    set; when it cannot, the call does nothing. *)
Definition focus (el : Element) (options : FocusOptions) (d : Document)
  : Document :=
  if canFocus d el
  then {| activeElement := Some (nodeId el);
          scrolledIntoView :=
            if preventScroll options then scrolledIntoView d
            else nodeId el :: scrolledIntoView d;
          unfocusable := unfocusable d |}
  else d.

(** The browser moves the focus to [target] itself (a click, the Tab key):
    what precedes every focus event. *)
Definition moveFocus (target : Element) (d : Document) : Document :=
  {| activeElement := Some (nodeId target);
     scrolledIntoView := scrolledIntoView d;
     unfocusable := unfocusable d |}.

(** A focus event as the handler sees it: [currentTarget] is the element
    the handler is attached to, the cell container. *)
Record FocusEvent : Type := mkFocusEvent { currentTarget : Element }.

End Dom.

Import Dom.

(** ** The component instance the hook runs in *)

(** [memoizedState] is the cell of the hook's one [useState]: [None] until
    the first evaluation stores the initial value. [renderScheduled] is
    raised by every state update: the framework answers it by evaluating
    the component (again). [document] is the page. *)
Record Runtime : Type := mkRuntime {
  memoizedState : option bool;
  renderScheduled : bool;
  document : Document
}.

Definition Hook : Type -> Type := state Runtime.

(** The state setter [useState] hands out. The value is stored for the next
    evaluation to read; the local constant the current evaluation has
    already read is not changed by it. *)
Definition setState (value : bool) : Hook unit :=
  rt <- get ;;
  put {| memoizedState := Some value;
         renderScheduled := true;
         document := document rt |}.

(** [useState(initialState)]: the stored value (the initial one on the
    first evaluation) with the setter. *)
Definition useState (initialState : bool) : Hook (bool * (bool -> Hook unit)) :=
  rt <- get ;;
  match memoizedState rt with
  | Some v => ret (v, setState)
  | None =>
      put {| memoizedState := Some initialState;
             renderScheduled := renderScheduled rt;
             document := document rt |} ;;
      ret (initialState, setState)
  end.

(** [el.focus(options)] as an effect on the page. *)
Definition focusElement (el : Element) (options : FocusOptions) : Hook unit :=
  rt <- get ;;
  put {| memoizedState := memoizedState rt;
         renderScheduled := renderScheduled rt;
         document := focus el options (document rt) |}.

(** ** The hook *)

(** What [useRovingTabIndex] returns; [onFocus = None] is [undefined]. *)
Record RovingTabIndex : Type := mkRovingTabIndex {
  tabIndex : Z;
  childTabIndex : Z;
  onFocus : option (FocusEvent -> Hook unit)
}.

(** The inner function [onFocus] of the hook; it closes over the setter. *)
Definition useRovingTabIndex_onFocus (setIsChildFocused : bool -> Hook unit)
  (event : FocusEvent) : Hook unit :=
  let elementToFocus :=
    querySelector (currentTarget event) (AttrEquals "tabindex" "0") in
  (* Focus cell content when available instead of the cell itself *)
  match elementToFocus with
  | Some el =>
      focusElement el {| preventScroll := true |} ;;
      setIsChildFocused true
  | None => ret tt
  end.

(** One pass through the body of [useRovingTabIndex]. *)
Definition useRovingTabIndex (isSelected : bool) : Hook RovingTabIndex :=
  '(isChildFocused, setIsChildFocused) <- useState false ;;
  (if isChildFocused && negb isSelected
   then setIsChildFocused false
   else ret tt) ;;
  let isFocusable := isSelected && negb isChildFocused in
  ret {| tabIndex := if isFocusable then 0 else -1;
         childTabIndex := if isSelected then 0 else -1;
         onFocus := if isSelected
                    then Some (useRovingTabIndex_onFocus setIsChildFocused)
                    else None |}.

(** ** How the framework evaluates the hook *)

(** The state the next pass will read as [isChildFocused]. *)
Definition isChildFocused (rt : Runtime) : bool :=
  match memoizedState rt with
  | Some v => v
  | None => false
  end.

Definition clearScheduled (rt : Runtime) : Runtime :=
  {| memoizedState := memoizedState rt;
     renderScheduled := false;
     document := document rt |}.

(** One pass: the body of the hook, run on the instance. *)
Definition renderPass (isSelected : bool) (rt : Runtime)
  : RovingTabIndex * Runtime :=
  runState (useRovingTabIndex isSelected) (clearScheduled rt).

(** A state update made while rendering makes the framework drop the
    result of the pass and run the component again at once; it gives up
    ("Too many re-renders") after [RE_RENDER_LIMIT] passes. *)
Definition RE_RENDER_LIMIT : nat := 25.

Fixpoint renderLoop (fuel : nat) (isSelected : bool) (rt : Runtime)
  : option (RovingTabIndex * Runtime) :=
  match fuel with
  | O => None
  | S fuel' =>
      let '(result, rt') := renderPass isSelected rt in
      if renderScheduled rt'
      then renderLoop fuel' isSelected rt'
      else Some (result, rt')
  end.

(** A settled evaluation: what the renderer gets for the cell. *)
Definition render (isSelected : bool) (rt : Runtime)
  : option (RovingTabIndex * Runtime) :=
  renderLoop RE_RENDER_LIMIT isSelected rt.

(** ** A cell over time *)

(** A mounted cell: its instance, the [isSelected] of its last evaluation
    and the outputs of that evaluation, whose [onFocus] is the handler
    attached to the cell container. *)
Record Cell : Type := mkCell {
  runtime : Runtime;
  selected : bool;
  committed : option RovingTabIndex
}.

(** What happens to a cell: the grid renders it, or the browser moves the
    focus to [target], the container or an element inside it, and the focus
    event reaches the container. *)
Inductive Action : Type :=
  | Render (isSelected : bool)
  | FocusIn (container target : Element).

(** Dispatching a focus event: the attached handler runs, if there is one. *)
Definition dispatchFocus (container : Element) (c : Cell) : Cell :=
  match committed c with
  | Some result =>
      match onFocus result with
      | Some handler =>
          {| runtime :=
               snd (runState (handler {| currentTarget := container |})
                             (runtime c));
             selected := selected c;
             committed := committed c |}
      | None => c
      end
  | None => c
  end.

(** The cell once the browser has moved the focus to [target]. *)
Definition focusMoved (target : Element) (c : Cell) : Cell :=
  {| runtime :=
       {| memoizedState := memoizedState (runtime c);
          renderScheduled := renderScheduled (runtime c);
          document := moveFocus target (document (runtime c)) |};
     selected := selected c;
     committed := committed c |}.

Definition step (a : Action) (c : Cell) : option Cell :=
  match a with
  | Render isSelected =>
      match render isSelected (runtime c) with
      | Some (result, rt') =>
          Some {| runtime := rt'; selected := isSelected;
                  committed := Some result |}
      | None => None
      end
  | FocusIn container target =>
      Some (dispatchFocus container (focusMoved target c))
  end.

Fixpoint run (actions : list Action) (c : Cell) : option Cell :=
  match actions with
  | [] => Some c
  | a :: rest =>
      match step a c with
      | Some c' => run rest c'
      | None => None
      end
  end.

(** A cell before its first evaluation, on a given page. *)
Definition mount (d : Document) : Cell :=
  {| runtime := {| memoizedState := None; renderScheduled := false;
                   document := d |};
     selected := false;
     committed := None |}.

(** ** The cell of the browser test "Focus child if it sets tabIndex" *)

(** The text of a numeric attribute: the number in decimal. *)
Definition tabIndexAttribute (z : Z) : string :=
  NilZero.string_of_int (Z.to_int z).

(** The container of a cell whose renderer returns a button carrying the
    tab index it is given and a plain span. *)
Definition buttonCell (r : RovingTabIndex) : Element :=
  mkElement 1 "div" [("role", "gridcell");
                     ("tabindex", tabIndexAttribute (tabIndex r))]
    [ mkElement 2 "button" [("type", "button");
                            ("tabindex", tabIndexAttribute (childTabIndex r))] [];
      mkElement 3 "span" [] [] ].

(** The same cell with nothing focusable in it. *)
Definition textCell (r : RovingTabIndex) : Element :=
  mkElement 1 "div" [("role", "gridcell");
                     ("tabindex", tabIndexAttribute (tabIndex r))]
    [ mkElement 3 "span" [] [] ].

Definition blankPage : Document :=
  {| activeElement := None; scrolledIntoView := []; unfocusable := [] |}.

(** ** JavaScript arrays, as the demo routes use them *)

Module JsArray.

(** The value an array yields where it has no element. *)
Class Undefined (A : Type) : Type := undefined : A.

Section Arrays.

Context {A : Type} `{Undefined A}.

(** [array.length]. *)
Definition length (array : list A) : Z := Z.of_nat (List.length array).

(** [array[index]] for an integer index: [undefined] outside the array,
    also at a negative index. *)
Definition get (array : list A) (index : Z) : A :=
  if (0 <=? index) && (index <? length array)
  then nth (Z.to_nat index) array undefined
  else undefined.

(** Where [toSpliced] and [splice] start: a negative [start] counts from
    the end, and the result is clamped to the array. *)
Definition actualStart (len start : Z) : Z :=
  if start <? 0 then Z.max (len + start) 0 else Z.min start len.

(** How many elements they skip: the count clamped to what is there. *)
Definition actualSkipCount (len from skipCount : Z) : Z :=
  Z.min (Z.max skipCount 0) (len - from).

(** [array.toSpliced(start, skipCount, ...items)]: a copy with the skipped
    elements replaced by [items]. *)
Definition toSpliced (array : list A) (start skipCount : Z) (items : list A)
  : list A :=
  let len := length array in
  let from := actualStart len start in
  let skipped := actualSkipCount len from skipCount in
  (firstn (Z.to_nat from) array ++ items
     ++ skipn (Z.to_nat (from + skipped)) array)%list.

(** [array.splice(start, deleteCount, ...items)]: the contents of the array
    after the call, which changes it in place the same way. *)
Definition splice (array : list A) (start deleteCount : Z) (items : list A)
  : list A :=
  toSpliced array start deleteCount items.

End Arrays.

End JsArray.

(** ** The route RowsReordering *)

Module RowsReordering.

Import JsArray.

Section Reorder.

Context {Row : Type} `{Undefined Row}.

(** The updater [onRowReorder] hands to [setRows]: the rows after the row
    at [fromIndex] was dropped on the row at [toIndex]. *)
Definition onRowReorder (fromIndex toIndex : Z) (rows : list Row) : list Row :=
  let row := get rows fromIndex in
  let newRows := toSpliced rows fromIndex 1 [] in
  splice newRows toIndex 0 [row].

End Reorder.

End RowsReordering.

(** ** The route MillionCells *)

Module MillionCells.

(** [String(i)] for a non-negative integer: its decimal digits. *)
Definition String_of_index (i : nat) : string :=
  NilZero.string_of_uint (Nat.to_uint i).

(** A column as this route declares it; [R] is the type of cell renderers. *)
Record Column (R : Type) : Type := mkColumn {
  key : string;
  name : string;
  frozen : bool;
  width : Z;
  resizable : bool;
  renderCell : R
}.

Arguments mkColumn {R}.
Arguments key {R}.
Arguments name {R}.
Arguments frozen {R}.
Arguments width {R}.
Arguments resizable {R}.
Arguments renderCell {R}.

(** [rows = [...Array(1000).keys()]]. *)
Definition rows : list nat := seq 0 1000.

Section Columns.

Context {R : Type} (renderCoordinates : R).

(** The body of the loop: the column pushed at index [i]. *)
Definition pushColumn (columns : list (Column R)) (i : nat) : list (Column R) :=
  let key := String_of_index i in
  (columns ++ [ {| key := key;
                   name := key;
                   frozen := (i <? 5)%nat;
                   width := 80;
                   resizable := true;
                   renderCell := renderCoordinates |} ])%list.

(** [for (let i = 0; i < bound; i++) columns.push(...)] from an empty
    array. *)
Definition columnsUpTo (bound : nat) : list (Column R) :=
  fold_left pushColumn (seq 0 bound) [].

Definition columns : list (Column R) := columnsUpTo 1000.

End Columns.

End MillionCells.

(** ** The route CommonFeatures *)

Module CommonFeatures.

(** JavaScript numbers and the operations the route applies to them. They
    are doubles; nothing below depends on how they compute. *)
Class Numbers : Type := {
  number : Type;
  literal : Z -> number;               (* an integer literal *)
  minus : number -> number -> number;  (* [a - b] *)
  negate : number -> number;           (* [-a] *)
  isZero : number -> bool;             (* [a === 0] *)
  localeCompare : string -> string -> number
}.

Section Sorting.

Context `{Numbers}.

Record Row : Type := mkRow {
  id : number;
  title : string;
  client : string;
  area : string;
  country : string;
  contact : string;
  assignee : string;
  progress : number;
  startTimestamp : number;
  endTimestamp : number;
  budget : number;
  transaction : string;
  account : string;
  version : string;
  available : bool
}.

Inductive SortDirection : Type := ASC | DESC.

Record SortColumn : Type := mkSortColumn {
  columnKey : string;
  direction : SortDirection
}.

Definition Comparator : Type := Row -> Row -> number.

(** The keys of the columns [getColumns] declares after [SelectColumn], in
    order. *)
Definition columnKeys : list string :=
  ["id"; "title"; "client"; "area"; "country"; "contact"; "assignee";
   "progress"; "startTimestamp"; "endTimestamp"; "budget"; "transaction";
   "account"; "version"; "available"].

(** The labels of the [switch] in [getComparator], each with the property
    [a[sortColumn]] reads under it, by the group they fall through to. *)
Inductive Case : Type :=
  | LocaleCase (property : Row -> string)
  | AvailableCase
  | DifferenceCase (property : Row -> number).

Definition switchCase (sortColumn : string) : option Case :=
  if String.eqb sortColumn "assignee" then Some (LocaleCase assignee)
  else if String.eqb sortColumn "title" then Some (LocaleCase title)
  else if String.eqb sortColumn "client" then Some (LocaleCase client)
  else if String.eqb sortColumn "area" then Some (LocaleCase area)
  else if String.eqb sortColumn "country" then Some (LocaleCase country)
  else if String.eqb sortColumn "contact" then Some (LocaleCase contact)
  else if String.eqb sortColumn "transaction" then Some (LocaleCase transaction)
  else if String.eqb sortColumn "account" then Some (LocaleCase account)
  else if String.eqb sortColumn "version" then Some (LocaleCase version)
  else if String.eqb sortColumn "available" then Some AvailableCase
  else if String.eqb sortColumn "id" then Some (DifferenceCase id)
  else if String.eqb sortColumn "progress" then Some (DifferenceCase progress)
  else if String.eqb sortColumn "startTimestamp"
       then Some (DifferenceCase startTimestamp)
  else if String.eqb sortColumn "endTimestamp"
       then Some (DifferenceCase endTimestamp)
  else if String.eqb sortColumn "budget" then Some (DifferenceCase budget)
  else None.

Definition doubleQuote : string := String (ascii_of_nat 34) EmptyString.

(** [getComparator]; [inl message] is the [Error] it throws. *)
Definition getComparator (sortColumn : string) : string + Comparator :=
  match switchCase sortColumn with
  | Some (LocaleCase property) =>
      inr (fun a b => localeCompare (property a) (property b))
  | Some AvailableCase =>
      inr (fun a b =>
             if Bool.eqb (available a) (available b) then literal 0
             else if available a then literal 1 else literal (-1))
  | Some (DifferenceCase property) =>
      inr (fun a b => minus (property a) (property b))
  | None =>
      inl ("unsupported sortColumn: " ++ doubleQuote ++ sortColumn ++ doubleQuote)
  end.

(** The callback [sortedRows] passes to [toSorted]: the loop over
    [sortColumns]. *)
Fixpoint compareRows (sortColumns : list SortColumn) (a b : Row)
  : string + number :=
  match sortColumns with
  | [] => inr (literal 0)
  | sort :: rest =>
      match getComparator (columnKey sort) with
      | inl error => inl error
      | inr comparator =>
          let compResult := comparator a b in
          if negb (isZero compResult)
          then inr (match direction sort with
                    | ASC => compResult
                    | DESC => negate compResult
                    end)
          else compareRows rest a b
      end
  end.

(** The two rows tie on a sort column: its comparator exists and returns
    zero for them. *)
Definition tied (a b : Row) (sort : SortColumn) : Prop :=
  exists comparator,
    getComparator (columnKey sort) = inr comparator /\
    isZero (comparator a b) = true.

End Sorting.

(** The one row of [summaryRows]. *)
Record SummaryRow : Type := mkSummaryRow {
  summaryId : string;
  totalCount : Z;
  yesCount : Z
}.

Section Summary.

Context `{Numbers}.

(** [summaryRows], computed from [rows]. *)
Definition summaryRows (rows : list Row) : list SummaryRow :=
  [ {| summaryId := "total_0";
       totalCount := Z.of_nat (List.length rows);
       yesCount := Z.of_nat (List.length (filter (fun r => available r) rows)) |} ].

End Summary.

(** What [Math.floor((100 * yesCount) / totalCount)] is for integer counts:
    not a number for [0 / 0], infinite for another division by zero, and
    else the floor of the quotient (the double quotient of two such
    integers has the floor of the exact one). *)
Inductive Percentage : Type :=
  | NaN
  | Infinity (negative : bool)
  | Finite (value : Z).

Definition percentage (yesCount totalCount : Z) : Percentage :=
  if totalCount =? 0
  then (if yesCount =? 0 then NaN else Infinity (yesCount <? 0))
  else Finite ((100 * yesCount) / totalCount).

(** The number as a template literal prints it. *)
Definition printPercentage (p : Percentage) : string :=
  match p with
  | NaN => "NaN"
  | Infinity false => "Infinity"
  | Infinity true => "-Infinity"
  | Finite value => NilZero.string_of_int (Z.to_int value)
  end.

(** [renderSummaryCell] of the column "available". *)
Definition renderSummaryCell (row : SummaryRow) : string :=
  printPercentage (percentage (yesCount row) (totalCount row)) ++ "% ✔️".

End CommonFeatures.

(** ** Notions the statements use *)

(** The handler every selected evaluation returns. *)
Definition theHandler : FocusEvent -> Hook unit :=
  useRovingTabIndex_onFocus setState.

Definition hasOnFocus (r : RovingTabIndex) : bool :=
  match onFocus r with
  | Some _ => true
  | None => false
  end.

(** Case analysis on everything a pass branches on. *)
Ltac hook_cases rt isSelected :=
  destruct rt as [[[|]|] ? ?]; destruct isSelected.

(** One label of a [switch] on a key that is none of the given ones. *)
Ltac not_this_label Hnot :=
  match goal with
  | |- context [String.eqb ?key ?label] =>
      destruct (String.eqb_spec key label) as [->|_];
      [exfalso; apply Hnot; simpl; tauto|]
  end.

(** The handler attached to the container is the one of the last
    evaluation: present when that evaluation was selected, absent when not,
    and absent before the first evaluation. *)
Definition attached (c : Cell) : Prop :=
  match committed c with
  | Some r => onFocus r = if selected c then Some theHandler else None
  | None => True
  end.

(** Child focus is held only by a selected cell. *)
Definition focusWithinSelection (c : Cell) : bool :=
  implb (isChildFocused (runtime c)) (selected c).

Definition consistent (c : Cell) : Prop :=
  attached c /\ focusWithinSelection c = true.


(** An evaluation with [isSelected = false]. *)
Definition isDeselection (a : Action) : bool :=
  match a with
  | Render isSelected => negb isSelected
  | FocusIn _ _ => false
  end.

(** A runtime whose stored child-focus state is [v]. *)
Definition withChildFocused (v : bool) (rt : Runtime) : Runtime :=
  {| memoizedState := Some v;
     renderScheduled := renderScheduled rt;
     document := document rt |}.

(** ** Concrete instances *)

(** A freshly mounted instance, and what its first selected evaluation
    returns and leaves. *)
Definition freshRuntime : Runtime := runtime (mount blankPage).

Definition selectedOutputs : RovingTabIndex :=
  {| tabIndex := 0; childTabIndex := 0; onFocus := Some theHandler |}.

Definition settledRuntime : Runtime :=
  {| memoizedState := Some false; renderScheduled := false;
     document := blankPage |}.

(** An instance whose button holds the focus. *)
Definition focusedRuntime : Runtime :=
  {| memoizedState := Some true; renderScheduled := false;
     document := {| activeElement := Some 2%nat; scrolledIntoView := [];
                    unfocusable := [] |} |}.

Definition focusedCell : Cell :=
  {| runtime := {| memoizedState := Some true; renderScheduled := true;
                   document := {| activeElement := Some 2%nat;
                                  scrolledIntoView := [];
                                  unfocusable := [] |} |};
     selected := true;
     committed := Some selectedOutputs |}.




(** A cell deselected after it was selected. *)
Definition deselectedCell : Cell :=
  {| runtime := settledRuntime;
     selected := false;
     committed := Some {| tabIndex := -1; childTabIndex := -1;
                          onFocus := None |} |}.

(** Four rows of a grid, with the text "undefined" for the missing row. *)
Definition fourRows : list string := ["a"; "b"; "c"; "d"].

Definition undefinedRow : JsArray.Undefined string := "undefined".

(** Numbers as integers, with strings compared by code point: one reading
    of the numbers the sorting is stated over. *)
Definition integerNumbers : CommonFeatures.Numbers :=
  {| CommonFeatures.number := Z;
     CommonFeatures.literal := fun z => z;
     CommonFeatures.minus := Z.sub;
     CommonFeatures.negate := Z.opp;
     CommonFeatures.isZero := Z.eqb 0;
     CommonFeatures.localeCompare :=
       fun a b => match String.compare a b with
                  | Lt => -1
                  | Eq => 0
                  | Gt => 1
                  end |}.

(** ** Facts about the DOM model *)

Section QuerySelector.

Variable p : Element -> bool.



Lemma find_none_of_all (l : list Element) :
  (forall y, In y l -> p y = false) -> find p l = None.
Proof.
  induction l as [|a l IH]; simpl; [reflexivity|].
  intros H. rewrite (H a (or_introl eq_refl)). apply IH.
  intros y Hy. apply H. now right.
Qed.

End QuerySelector.

(** Tree order: a match nested in an earlier child comes before a match in
    a later child, and the root itself is never the answer. *)
Example querySelector_tree_order :
  let nested := mkElement 3 "a" [("tabindex", "0")] [] in
  let later := mkElement 4 "button" [("tabindex", "0")] [] in
  let root :=
    mkElement 1 "div" [("tabindex", "0")]
      [mkElement 2 "span" [("tabindex", "-1")] [nested]; later] in
  querySelector root (AttrEquals "tabindex" "0") = Some nested /\
  querySelector later (AttrEquals "tabindex" "0") = None.
Proof. split; reflexivity. Qed.

Lemma matches_attr (name value : string) (e : Element) :
  matches (AttrEquals name value) e = true <-> getAttribute e name = Some value.
Proof.
  unfold matches, option_string_eqb.
  destruct (getAttribute e name) as [v|].
  - rewrite String.eqb_eq. split; congruence.
  - split; discriminate.
Qed.

Lemma matches_attr_false (name value : string) (e : Element) :
  getAttribute e name <> Some value -> matches (AttrEquals name value) e = false.
Proof.
  intros H. destruct (matches (AttrEquals name value) e) eqn:E; [|reflexivity].
  apply matches_attr in E. contradiction.
Qed.

(** ** Facts about one pass and about settled evaluations *)

Lemma renderPass_outputs (isSelected : bool) (rt : Runtime) :
  fst (renderPass isSelected rt) =
  {| tabIndex := if isSelected && negb (isChildFocused rt) then 0 else -1;
     childTabIndex := if isSelected then 0 else -1;
     onFocus := if isSelected then Some theHandler else None |}.
Proof. hook_cases rt isSelected; reflexivity. Qed.

Lemma renderPass_state (isSelected : bool) (rt : Runtime) :
  snd (renderPass isSelected rt) =
  {| memoizedState := Some (isSelected && isChildFocused rt);
     renderScheduled := isChildFocused rt && negb isSelected;
     document := document rt |}.
Proof. hook_cases rt isSelected; reflexivity. Qed.

(** A settled evaluation is a pass entered with the state already reset,
    and it needs at most two passes. *)
Lemma render_settles (isSelected : bool) (rt : Runtime) :
  exists rt0,
    isChildFocused rt0 = isSelected && isChildFocused rt /\
    document rt0 = document rt /\
    renderScheduled (snd (renderPass isSelected rt0)) = false /\
    render isSelected rt = Some (renderPass isSelected rt0).
Proof.
  destruct (isChildFocused rt && negb isSelected) eqn:E.
  - exists (snd (renderPass isSelected rt)).
    hook_cases rt isSelected; try discriminate E; repeat split; reflexivity.
  - exists rt.
    hook_cases rt isSelected; try discriminate E; repeat split; reflexivity.
Qed.

Lemma render_spec (isSelected : bool) (rt : Runtime) :
  render isSelected rt =
  Some ({| tabIndex := if isSelected && negb (isChildFocused rt) then 0 else -1;
           childTabIndex := if isSelected then 0 else -1;
           onFocus := if isSelected then Some theHandler else None |},
        {| memoizedState := Some (isSelected && isChildFocused rt);
           renderScheduled := false;
           document := document rt |}).
Proof. hook_cases rt isSelected; reflexivity. Qed.


Lemma focus_cannot (el : Element) (options : FocusOptions) (d : Document) :
  canFocus d el = false -> focus el options d = d.
Proof. intros Hc. unfold focus. rewrite Hc. reflexivity. Qed.



Lemma focus_idempotent (el : Element) (d : Document) :
  focus el {| preventScroll := true |} (focus el {| preventScroll := true |} d)
  = focus el {| preventScroll := true |} d.
Proof.
  destruct (canFocus d el) eqn:Hc.
  - unfold focus. rewrite Hc. cbn [preventScroll].
    change (canFocus {| activeElement := Some (nodeId el);
                        scrolledIntoView := scrolledIntoView d;
                        unfocusable := unfocusable d |} el)
      with (canFocus d el).
    rewrite Hc. reflexivity.
  - rewrite !(focus_cannot _ _ _ Hc). reflexivity.
Qed.

(** What the handler does, by the outcome of its search. *)
Lemma onFocus_run (event : FocusEvent) (rt : Runtime) :
  runState (theHandler event) rt =
  (tt, match querySelector (currentTarget event) (AttrEquals "tabindex" "0") with
       | Some el =>
           {| memoizedState := Some true;
              renderScheduled := true;
              document := focus el {| preventScroll := true |} (document rt) |}
       | None => rt
       end).
Proof.
  unfold theHandler, useRovingTabIndex_onFocus.
  destruct (querySelector _ _); reflexivity.
Qed.

(** ** Facts about a cell over time *)

Lemma step_total (a : Action) (c : Cell) : exists c', step a c = Some c'.
Proof.
  destruct a as [isSelected|container]; simpl; [|eauto].
  rewrite render_spec. eauto.
Qed.

(** An evaluation makes the cell consistent, whatever it was before. *)
Lemma step_render_consistent (isSelected : bool) (c c' : Cell) :
  step (Render isSelected) c = Some c' -> consistent c'.
Proof.
  simpl. rewrite render_spec. intros E. injection E as <-.
  split.
  - unfold attached. simpl. reflexivity.
  - unfold focusWithinSelection. simpl.
    destruct isSelected, (isChildFocused (runtime c)); reflexivity.
Qed.

Lemma dispatchFocus_consistent (container : Element) (c : Cell) :
  consistent c -> consistent (dispatchFocus container c).
Proof.
  intros [Ha Hf]. unfold dispatchFocus.
  destruct (committed c) as [r|] eqn:Ec; [|split; assumption].
  destruct (onFocus r) as [handler|] eqn:Eh; [|split; assumption].
  unfold attached in Ha. rewrite Ec, Eh in Ha.
  destruct (selected c) eqn:Es; [|discriminate Ha].
  split.
  - unfold attached. simpl. rewrite Eh. exact Ha.
  - unfold focusWithinSelection. simpl. apply Bool.implb_true_r.
Qed.

(** The browser moving the focus leaves the hook alone. *)
Lemma focusMoved_consistent (target : Element) (c : Cell) :
  consistent c -> consistent (focusMoved target c).
Proof. intros Hc. exact Hc. Qed.

Lemma focusMoved_childFocused (target : Element) (c : Cell) :
  isChildFocused (runtime (focusMoved target c)) = isChildFocused (runtime c).
Proof. reflexivity. Qed.

Lemma step_consistent (a : Action) (c c' : Cell) :
  consistent c -> step a c = Some c' -> consistent c'.
Proof.
  destruct a as [isSelected|container target]; intros Hc E.
  - exact (step_render_consistent _ _ _ E).
  - simpl in E. injection E as <-.
    apply dispatchFocus_consistent. now apply focusMoved_consistent.
Qed.

Lemma run_consistent (actions : list Action) :
  forall c c', consistent c -> run actions c = Some c' -> consistent c'.
Proof.
  induction actions as [|a rest IH]; simpl; intros c c' Hc E.
  - injection E as <-. assumption.
  - destruct (step a c) as [c1|] eqn:Es; [|discriminate E].
    exact (IH c1 c' (step_consistent _ _ _ Hc Es) E).
Qed.

Lemma run_total (actions : list Action) :
  forall c, exists c', run actions c = Some c'.
Proof.
  induction actions as [|a rest IH]; simpl; intros c; [eauto|].
  destruct (step_total a c) as [c1 ->]. apply IH.
Qed.

Lemma mount_consistent (d : Document) : consistent (mount d).
Proof. split; reflexivity. Qed.

(** The handler a consistent cell dispatches to is the hook's. *)
Lemma dispatchFocus_runtime (container : Element) (c : Cell) :
  consistent c ->
  runtime (dispatchFocus container c) = runtime c \/
  runtime (dispatchFocus container c) =
    snd (runState (theHandler {| currentTarget := container |}) (runtime c)).
Proof.
  intros [Ha _]. unfold dispatchFocus.
  destruct (committed c) as [r|] eqn:Ec; [|now left].
  destruct (onFocus r) as [handler|] eqn:Eh; [|now left].
  unfold attached in Ha. rewrite Ec, Eh in Ha.
  destruct (selected c); [|discriminate Ha].
  injection Ha as ->. now right.
Qed.

(** ** The specification's claims *)

(** C1. Child focus is held only while the cell is selected. Every run of a
    cell (evaluations and focus events, in any order, from the mounted
    cell) ends in a cell where [isChildFocused] implies [selected], so the
    invariant holds after each evaluation of the run; an evaluation restores
    it from any state at all; and an evaluation entered with
    [isChildFocused = true] and [isSelected = false] settles with
    [isChildFocused = false] and a container tab index of [-1], which is
    also what its first pass returns and stores. *)
Theorem childFocused_only_while_selected :
  (forall (d : Document) (actions : list Action),
      exists c,
        run actions (mount d) = Some c /\
        implb (isChildFocused (runtime c)) (selected c) = true) /\
  (forall (isSelected : bool) (rt : Runtime),
      exists r rt',
        render isSelected rt = Some (r, rt') /\
        implb (isChildFocused rt') isSelected = true) /\
  (forall rt : Runtime,
      isChildFocused rt = true ->
      exists r rt',
        render false rt = Some (r, rt') /\
        isChildFocused rt' = false /\
        tabIndex r = -1 /\
        isChildFocused (snd (renderPass false rt)) = false /\
        tabIndex (fst (renderPass false rt)) = -1).
Proof.
  split; [|split].
  - intros d actions.
    destruct (run_total actions (mount d)) as [c E].
    exists c. split; [exact E|].
    exact (proj2 (run_consistent actions _ _ (mount_consistent d) E)).
  - intros isSelected rt. rewrite render_spec.
    eexists _, _. split; [reflexivity|].
    destruct isSelected, (isChildFocused rt); reflexivity.
  - intros rt H. rewrite render_spec, renderPass_outputs, renderPass_state.
    eexists _, _. split; [reflexivity|].
    repeat split; reflexivity.
Qed.

(** C2. The container tab index an evaluation returns is [0] when
    [isSelected] is true and [isChildFocused] is false, and [-1] in every
    other case: for the single pass, for the settled evaluation read
    against the state it was entered with, and against the state it leaves. *)
Theorem containerTabIndex_value (isSelected : bool) (rt : Runtime) :
  tabIndex (fst (renderPass isSelected rt)) =
    (if isSelected && negb (isChildFocused rt) then 0 else -1) /\
  exists r rt',
    render isSelected rt = Some (r, rt') /\
    tabIndex r = (if isSelected && negb (isChildFocused rt) then 0 else -1) /\
    tabIndex r = (if isSelected && negb (isChildFocused rt') then 0 else -1).
Proof.
  rewrite renderPass_outputs, render_spec. split; [reflexivity|].
  eexists _, _. split; [reflexivity|]. simpl.
  destruct isSelected, (isChildFocused rt); split; reflexivity.
Qed.

(** C3. The descendant tab index an evaluation returns is [0] when
    [isSelected] is true and [-1] when it is false, whatever the child-focus
    state: two instances in any two states get the same value. *)
Theorem childTabIndex_value (isSelected : bool) (rt other : Runtime) :
  childTabIndex (fst (renderPass isSelected rt)) =
    (if isSelected then 0 else -1) /\
  childTabIndex (fst (renderPass isSelected rt)) =
    childTabIndex (fst (renderPass isSelected other)) /\
  exists r rt',
    render isSelected rt = Some (r, rt') /\
    childTabIndex r = (if isSelected then 0 else -1).
Proof.
  rewrite !renderPass_outputs, render_spec. repeat split.
  eexists _, _. split; reflexivity.
Qed.

(** C4. An evaluation with [isSelected = false] returns [-1] for both tab
    indices and no focus handler, and leaves [isChildFocused] false; the
    handler is returned exactly when [isSelected] is true. *)
Theorem deselected_outputs (rt : Runtime) :
  (exists r rt',
      render false rt = Some (r, rt') /\
      tabIndex r = -1 /\ childTabIndex r = -1 /\ onFocus r = None /\
      isChildFocused rt' = false) /\
  (fst (renderPass false rt) =
     {| tabIndex := -1; childTabIndex := -1; onFocus := None |} /\
   isChildFocused (snd (renderPass false rt)) = false) /\
  (forall isSelected : bool,
      hasOnFocus (fst (renderPass isSelected rt)) = isSelected /\
      exists r rt',
        render isSelected rt = Some (r, rt') /\ hasOnFocus r = isSelected).
Proof.
  split; [|split].
  - rewrite render_spec. eexists _, _. split; [reflexivity|].
    repeat split; reflexivity.
  - rewrite renderPass_outputs, renderPass_state. split; reflexivity.
  - intros isSelected. rewrite renderPass_outputs, render_spec.
    split; [destruct isSelected; reflexivity|].
    eexists _, _. split; [reflexivity|]. destruct isSelected; reflexivity.
Qed.



(** C6. The outputs of an evaluation with [isSelected = false] never show
    the stale child-focus state: the record a pass returns, and the record
    the settled evaluation returns, are those of the same evaluation entered
    with [isChildFocused = false]; and whatever [isSelected] is, the outputs
    the renderer receives come from a pass entered with the state already
    reset. *)
Theorem deselection_reset_precedes_outputs (rt : Runtime) :
  fst (renderPass false rt) = fst (renderPass false (withChildFocused false rt)) /\
  (exists r rt1 rt2,
      render false rt = Some (r, rt1) /\
      render false (withChildFocused false rt) = Some (r, rt2) /\
      isChildFocused rt1 = false) /\
  (forall isSelected : bool,
      exists settled,
        isChildFocused settled = isSelected && isChildFocused rt /\
        implb (isChildFocused settled) isSelected = true /\
        render isSelected rt = Some (renderPass isSelected settled)).
Proof.
  split; [|split].
  - rewrite !renderPass_outputs. reflexivity.
  - rewrite !render_spec. eexists _, _, _. repeat split.
  - intros isSelected.
    destruct (render_settles isSelected rt) as (rt0 & H0 & _ & _ & Hr).
    exists rt0. repeat split; auto.
    rewrite H0. destruct isSelected, (isChildFocused rt); reflexivity.
Qed.


(** C8. Evaluation is idempotent. Evaluating twice with the same
    [isSelected] returns the same outputs both times, and the second
    evaluation leaves the instance as the first left it; the same holds
    pass by pass for the outputs and for [isChildFocused]. *)
Theorem render_idempotent (isSelected : bool) (rt : Runtime) :
  (exists r rt',
      render isSelected rt = Some (r, rt') /\
      render isSelected rt' = Some (r, rt')) /\
  (let first := renderPass isSelected rt in
   let second := renderPass isSelected (snd first) in
   fst second = fst first /\
   isChildFocused (snd second) = isChildFocused (snd first)).
Proof.
  split.
  - rewrite render_spec. eexists _, _. split; [reflexivity|].
    rewrite render_spec. simpl.
    destruct isSelected, (isChildFocused rt); reflexivity.
  - simpl. rewrite !renderPass_outputs, !renderPass_state. simpl.
    destruct isSelected, (isChildFocused rt); split; reflexivity.
Qed.

(** C9. Only a deselected evaluation clears [isChildFocused]. The handler
    of any evaluation either sets it to true or changes nothing; in every
    run from the mounted cell, a step that takes it from true to false is
    an evaluation with [isSelected = false]; and dispatching a focus event
    to a container none of whose descendants carries [tabindex="0"] leaves
    the cell as it was. *)
Theorem childFocused_cleared_only_by_deselection :
  (forall (isSelected : bool) (rt rt' : Runtime) (r : RovingTabIndex)
          (handler : FocusEvent -> Hook unit),
      render isSelected rt = Some (r, rt') ->
      onFocus r = Some handler ->
      forall (event : FocusEvent) (before : Runtime),
        isChildFocused (snd (runState (handler event) before)) = true \/
        snd (runState (handler event) before) = before) /\
  (forall (d : Document) (actions : list Action) (c c' : Cell) (a : Action),
      run actions (mount d) = Some c ->
      step a c = Some c' ->
      isChildFocused (runtime c) = true ->
      isChildFocused (runtime c') = false ->
      a = Render false) /\
  (forall (d : Document) (actions : list Action) (c : Cell)
          (container : Element),
      run actions (mount d) = Some c ->
      (forall x, In x (descendants container) ->
                 getAttribute x "tabindex" <> Some "0") ->
      dispatchFocus container c = c).
Proof.
  split; [|split].
  - intros isSelected rt rt' r handler E Hh event before.
    rewrite render_spec in E. injection E as <- _.
    destruct isSelected; [|discriminate Hh]. injection Hh as <-.
    rewrite onFocus_run.
    destruct (querySelector _ _); [left|right]; reflexivity.
  - intros d actions c c' a Hrun Hstep Ht Hf.
    pose proof (run_consistent _ _ _ (mount_consistent d) Hrun) as Hc.
    destruct a as [[|]|container target]; [| reflexivity |]; exfalso.
    + simpl in Hstep. rewrite render_spec in Hstep. injection Hstep as <-.
      simpl in Hf. rewrite Ht in Hf. discriminate Hf.
    + simpl in Hstep. injection Hstep as <-.
      rewrite <- (focusMoved_childFocused target c) in Ht.
      destruct (dispatchFocus_runtime container (focusMoved target c)
                  (focusMoved_consistent target c Hc)) as [E|E];
        rewrite E in Hf.
      * congruence.
      * rewrite onFocus_run in Hf. cbn [snd currentTarget] in Hf.
        destruct (querySelector _ _); [discriminate Hf | congruence].
  - intros d actions c container Hrun Hnone.
    pose proof (run_consistent _ _ _ (mount_consistent d) Hrun) as [Ha _].
    unfold dispatchFocus.
    destruct (committed c) as [r|] eqn:Ec; [|reflexivity].
    destruct (onFocus r) as [handler|] eqn:Eh; [|reflexivity].
    unfold attached in Ha. rewrite Ec, Eh in Ha.
    destruct (selected c) eqn:Es; [|discriminate Ha].
    injection Ha as ->. rewrite onFocus_run. simpl.
    unfold querySelector. rewrite find_none_of_all.
    + destruct c; simpl in *. congruence.
    + intros y Hy. apply matches_attr_false. now apply Hnone.
Qed.

(** C10. The outputs are a function of [isSelected] and [isChildFocused]
    alone: two instances that agree on [isChildFocused], whatever their
    pages, pending flags and histories, get the same record (tab indices
    and handler) from a pass and from a settled evaluation with the same
    [isSelected]. *)
Theorem outputs_depend_only_on_selected_and_childFocused
  (isSelected : bool) (rt1 rt2 : Runtime) :
  isChildFocused rt1 = isChildFocused rt2 ->
  fst (renderPass isSelected rt1) = fst (renderPass isSelected rt2) /\
  exists r rt1' rt2',
    render isSelected rt1 = Some (r, rt1') /\
    render isSelected rt2 = Some (r, rt2') /\
    hasOnFocus r = isSelected.
Proof.
  intros H. rewrite !renderPass_outputs, !render_spec, H.
  split; [reflexivity|].
  eexists _, _, _. repeat split. destruct isSelected; reflexivity.
Qed.

(** ** The claims at concrete cells *)

(** C1 at an instance whose cell was deselected while its button held the
    focus. *)
Lemma childFocused_only_while_selected_witness :
  isChildFocused focusedRuntime = true /\
  exists r rt',
    render false focusedRuntime = Some (r, rt') /\
    isChildFocused rt' = false /\
    tabIndex r = -1 /\
    isChildFocused (snd (renderPass false focusedRuntime)) = false /\
    tabIndex (fst (renderPass false focusedRuntime)) = -1.
Proof.
  split; [reflexivity|].
  apply (proj2 (proj2 childFocused_only_while_selected) focusedRuntime).
  reflexivity.
Defined.



(** C9 at the run "select, focus the button, deselect" and at a focus event
    on the cell holding only the span. *)
Lemma childFocused_cleared_only_by_deselection_witness :
  (render true freshRuntime = Some (selectedOutputs, settledRuntime) /\
   (isChildFocused
      (snd (runState (theHandler {| currentTarget := buttonCell selectedOutputs |})
                     settledRuntime)) = true \/
    snd (runState (theHandler {| currentTarget := buttonCell selectedOutputs |})
                  settledRuntime) = settledRuntime)) /\
  (run [Render true; FocusIn (buttonCell selectedOutputs) (buttonCell selectedOutputs)] (mount blankPage)
     = Some focusedCell /\
   isChildFocused (runtime focusedCell) = true /\
   exists c',
     step (Render false) focusedCell = Some c' /\
     isChildFocused (runtime c') = false /\
     Render false = Render false) /\
  (dispatchFocus (textCell selectedOutputs) focusedCell = focusedCell).
Proof.
  split; [|split].
  - split; [reflexivity|].
    apply (proj1 childFocused_cleared_only_by_deselection
             true freshRuntime settledRuntime selectedOutputs theHandler
             eq_refl eq_refl).
  - split; [reflexivity|]. split; [reflexivity|].
    eexists. split; [reflexivity|]. split; [reflexivity|].
    apply (proj1 (proj2 childFocused_cleared_only_by_deselection)
             blankPage [Render true; FocusIn (buttonCell selectedOutputs) (buttonCell selectedOutputs)]
             focusedCell _ (Render false) eq_refl eq_refl eq_refl eq_refl).
  - apply (proj2 (proj2 childFocused_cleared_only_by_deselection)
             blankPage [Render true; FocusIn (buttonCell selectedOutputs) (buttonCell selectedOutputs)]
             focusedCell (textCell selectedOutputs) eq_refl).
    intros x [<-|[]]; discriminate.
Defined.

(** C10 at a fresh instance and at one with another page, a pending flag
    and a stored state. *)
Lemma outputs_depend_only_on_selected_and_childFocused_witness :
  isChildFocused freshRuntime =
    isChildFocused (withChildFocused false focusedRuntime) /\
  fst (renderPass true freshRuntime) =
    fst (renderPass true (withChildFocused false focusedRuntime)) /\
  exists r rt1' rt2',
    render true freshRuntime = Some (r, rt1') /\
    render true (withChildFocused false focusedRuntime) = Some (r, rt2') /\
    hasOnFocus r = true.
Proof.
  split; [reflexivity|].
  apply (outputs_depend_only_on_selected_and_childFocused
           true freshRuntime (withChildFocused false focusedRuntime)).
  reflexivity.
Defined.

(** ** More about the hook: passes, the page, and runs *)

(** X1. The state update made while rendering never runs into the
    re-render limit: two passes always settle an evaluation, whatever the
    limit above that, and a single pass is not enough exactly when the cell
    was deselected while [isChildFocused] was true. *)
Theorem render_settles_within_two_passes
  (fuel : nat) (isSelected : bool) (rt : Runtime) :
  renderLoop (S (S fuel)) isSelected rt = render isSelected rt /\
  (exists settled, render isSelected rt = Some settled) /\
  renderLoop 1 isSelected rt =
    (if isChildFocused rt && negb isSelected then None
     else render isSelected rt).
Proof.
  rewrite render_spec. split; [|split].
  - hook_cases rt isSelected; reflexivity.
  - eauto.
  - hook_cases rt isSelected; reflexivity.
Qed.







Lemma step_keeps_childFocused (a : Action) (c c' : Cell) :
  consistent c -> isDeselection a = false -> step a c = Some c' ->
  isChildFocused (runtime c) = true ->
  isChildFocused (runtime c') = true.
Proof.
  intros Hc Ha E Ht. destruct a as [[|]|container target]; try discriminate Ha.
  - simpl in E. rewrite render_spec in E. injection E as <-. exact Ht.
  - simpl in E. injection E as <-.
    rewrite <- (focusMoved_childFocused target c) in Ht.
    destruct (dispatchFocus_runtime container (focusMoved target c)
                (focusMoved_consistent target c Hc)) as [E|E]; rewrite E.
    + exact Ht.
    + rewrite onFocus_run. cbn [snd].
      destruct (querySelector _ _); [reflexivity|exact Ht].
Qed.

Lemma run_keeps_childFocused (actions : list Action) :
  forall c c',
    consistent c -> existsb isDeselection actions = false ->
    run actions c = Some c' ->
    isChildFocused (runtime c) = true ->
    isChildFocused (runtime c') = true.
Proof.
  induction actions as [|a rest IH]; simpl; intros c c' Hc Hn E Ht.
  - injection E as <-. exact Ht.
  - apply Bool.orb_false_iff in Hn. destruct Hn as [Ha Hrest].
    destruct (step a c) as [c1|] eqn:Es; [|discriminate E].
    apply (IH c1 c' (step_consistent _ _ _ Hc Es) Hrest E).
    exact (step_keeps_childFocused a c c1 Hc Ha Es Ht).
Qed.

(** X3. Child focus is sticky while the cell stays selected. After a run
    from the mounted cell has set [isChildFocused], any further evaluations
    with [isSelected = true] and focus events, in any number and order,
    leave it set, and the next selected evaluation still returns a container
    tab index of [-1]: the hook has no way back but a deselection. *)
Theorem childFocused_sticky_while_selected
  (d : Document) (before after : list Action) (c : Cell) :
  run before (mount d) = Some c ->
  isChildFocused (runtime c) = true ->
  existsb isDeselection after = false ->
  exists c' r rt',
    run after c = Some c' /\
    isChildFocused (runtime c') = true /\
    render true (runtime c') = Some (r, rt') /\
    tabIndex r = -1.
Proof.
  intros Hrun Ht Hn.
  pose proof (run_consistent _ _ _ (mount_consistent d) Hrun) as Hc.
  destruct (run_total after c) as [c' E].
  pose proof (run_keeps_childFocused after c c' Hc Hn E Ht) as Ht'.
  exists c'. rewrite render_spec, Ht'. eexists _, _.
  repeat split; auto.
Qed.

(** X4. Deselecting and selecting again gives the container its tab stop
    back: from any cell, in any state, an evaluation with
    [isSelected = false] followed by one with [isSelected = true] returns
    [0] for both tab indices with [isChildFocused] false. *)
Theorem reselection_restores_container_tab_stop (c : Cell) :
  exists c' r,
    run [Render false; Render true] c = Some c' /\
    committed c' = Some r /\
    tabIndex r = 0 /\
    childTabIndex r = 0 /\
    hasOnFocus r = true /\
    isChildFocused (runtime c') = false.
Proof.
  cbn [run step]. rewrite render_spec. cbn [runtime].
  rewrite render_spec. eexists _, _.
  repeat split; reflexivity.
Qed.

(** X5. The handler is idempotent: run twice on the same event (as when
    the focus event of the descendant it has just focused reaches the
    container again) it leaves the instance and the page as one run does. *)
Theorem onFocus_idempotent
  (rt rt' : Runtime) (r : RovingTabIndex) (handler : FocusEvent -> Hook unit) :
  render true rt = Some (r, rt') ->
  onFocus r = Some handler ->
  forall (event : FocusEvent) (before : Runtime),
    runState (handler event ;; handler event) before =
    runState (handler event) before.
Proof.
  rewrite render_spec. intros E Hh. injection E as <- _.
  injection Hh as <-. intros event before.
  change (runState (theHandler event ;; theHandler event) before)
    with (let '(_, s) := runState (theHandler event) before in
          runState (theHandler event) s).
  rewrite onFocus_run.
  destruct (querySelector _ _) as [el|] eqn:Eq;
    rewrite onFocus_run, Eq; [|reflexivity].
  cbn [document]. rewrite focus_idempotent. reflexivity.
Qed.

(** X6. A deselected cell ignores focus events: after any run from the
    mounted cell whose last evaluation had [isSelected = false] (or that
    had none), dispatching a focus event to the container changes nothing,
    whatever the container holds. *)
Theorem deselected_cell_ignores_focus
  (d : Document) (actions : list Action) (c : Cell) (container : Element) :
  run actions (mount d) = Some c ->
  selected c = false ->
  dispatchFocus container c = c.
Proof.
  intros Hrun Hs.
  pose proof (run_consistent _ _ _ (mount_consistent d) Hrun) as [Ha _].
  unfold dispatchFocus. unfold attached in Ha.
  destruct (committed c) as [r|]; [|reflexivity].
  rewrite Ha, Hs. reflexivity.
Qed.

(** ** Row reordering *)

Section ArrayFacts.

Import JsArray.

Context {A : Type} `{Undefined A}.

Lemma jsLength_app (l1 l2 : list A) :
  length (l1 ++ l2) = length l1 + length l2.
Proof. unfold length. rewrite List.length_app. lia. Qed.

Lemma jsLength_cons (x : A) (l : list A) : length (x :: l) = length l + 1.
Proof. unfold length. simpl List.length. lia. Qed.

Lemma jsLength_nonneg (l : list A) : 0 <= length l.
Proof. unfold length. lia. Qed.

Lemma actualStart_within (len start : Z) :
  0 <= start <= len -> actualStart len start = start.
Proof.
  intros Hs. unfold actualStart.
  destruct (Z.ltb_spec start 0); lia.
Qed.

Lemma actualStart_beyond (len start : Z) :
  0 <= len <= start -> actualStart len start = len.
Proof.
  intros Hs. unfold actualStart.
  destruct (Z.ltb_spec start 0); lia.
Qed.

(** Every position of an array splits it around its element. *)
Lemma split_at (l : list A) (i : Z) :
  0 <= i < length l ->
  exists l1 x l2, l = (l1 ++ x :: l2)%list /\ length l1 = i.
Proof.
  intros Hi. unfold length in *.
  assert (Hn : (Z.to_nat i < List.length l)%nat) by lia.
  destruct (nth_error l (Z.to_nat i)) as [x|] eqn:E.
  - destruct (nth_error_split l (Z.to_nat i) E) as (l1 & l2 & -> & Hl).
    exists l1, x, l2. split; [reflexivity|lia].
  - apply nth_error_None in E. lia.
Qed.

Lemma get_middle (l1 l2 : list A) (x : A) :
  get (l1 ++ x :: l2) (length l1) = x.
Proof.
  unfold get. rewrite jsLength_app, jsLength_cons.
  pose proof (jsLength_nonneg l1). pose proof (jsLength_nonneg l2).
  destruct (Z.leb_spec 0 (length l1)); [|lia].
  destruct (Z.ltb_spec (length l1) (length l1 + (length l2 + 1))); [|lia].
  simpl. unfold length. rewrite Nat2Z.id.
  rewrite app_nth2, Nat.sub_diag; [reflexivity|lia].
Qed.

Lemma get_outside (l : list A) (i : Z) :
  i < 0 \/ length l <= i -> get l i = undefined.
Proof.
  intros Hi. unfold get.
  destruct (Z.leb_spec 0 i); [|reflexivity].
  destruct (Z.ltb_spec i (length l)); [lia|reflexivity].
Qed.

Lemma toSpliced_middle (l1 l2 : list A) (x : A) :
  toSpliced (l1 ++ x :: l2) (length l1) 1 [] = (l1 ++ l2)%list.
Proof.
  unfold toSpliced. rewrite jsLength_app, jsLength_cons.
  pose proof (jsLength_nonneg l1). pose proof (jsLength_nonneg l2).
  rewrite actualStart_within by lia.
  unfold actualSkipCount.
  replace (Z.min (Z.max 1 0) (length l1 + (length l2 + 1) - length l1))
    with 1 by lia.
  unfold length. rewrite Nat2Z.id.
  replace (Z.to_nat (Z.of_nat (List.length l1) + 1))
    with (List.length l1 + 1)%nat by lia.
  rewrite firstn_app, Nat.sub_diag, firstn_all. simpl.
  rewrite app_nil_r. f_equal.
  rewrite skipn_app, skipn_all2 by lia.
  replace (List.length l1 + 1 - List.length l1)%nat with 1%nat by lia.
  reflexivity.
Qed.

Lemma toSpliced_beyond (l : list A) (start : Z) :
  length l <= start -> toSpliced l start 1 [] = l.
Proof.
  intros Hs. unfold toSpliced. pose proof (jsLength_nonneg l).
  rewrite actualStart_beyond by lia.
  unfold actualSkipCount.
  replace (length l + Z.min (Z.max 1 0) (length l - length l))
    with (length l) by lia.
  unfold length. rewrite Nat2Z.id, firstn_all, skipn_all. simpl.
  apply app_nil_r.
Qed.

Lemma splice_insert (l : list A) (start : Z) (x : A) :
  0 <= start <= length l ->
  splice l start 0 [x] =
    (firstn (Z.to_nat start) l ++ x :: skipn (Z.to_nat start) l)%list.
Proof.
  intros Hs. unfold splice, toSpliced.
  rewrite actualStart_within by lia.
  unfold actualSkipCount.
  replace (start + Z.min (Z.max 0 0) (length l - start)) with start by lia.
  reflexivity.
Qed.

Lemma splice_anywhere (l : list A) (start : Z) (x : A) :
  exists k,
    0 <= k <= length l /\
    splice l start 0 [x] =
      (firstn (Z.to_nat k) l ++ x :: skipn (Z.to_nat k) l)%list.
Proof.
  pose proof (jsLength_nonneg l).
  exists (actualStart (length l) start).
  assert (Hk : 0 <= actualStart (length l) start <= length l).
  { unfold actualStart. destruct (Z.ltb_spec start 0); lia. }
  split; [exact Hk|].
  unfold splice, toSpliced, actualSkipCount.
  replace (actualStart (length l) start
           + Z.min (Z.max 0 0) (length l - actualStart (length l) start))
    with (actualStart (length l) start) by lia.
  reflexivity.
Qed.

Lemma splice_append (l : list A) (start : Z) (x : A) :
  length l <= start -> splice l start 0 [x] = (l ++ [x])%list.
Proof.
  intros Hs. unfold splice, toSpliced. pose proof (jsLength_nonneg l).
  rewrite actualStart_beyond by lia.
  unfold actualSkipCount.
  replace (length l + Z.min (Z.max 0 0) (length l - length l))
    with (length l) by lia.
  unfold length. rewrite Nat2Z.id, firstn_all, skipn_all. reflexivity.
Qed.

(** Inserting at the seam of two pieces. *)
Lemma splice_at_seam (l1 l2 : list A) (x : A) :
  splice (l1 ++ l2) (length l1) 0 [x] = (l1 ++ x :: l2)%list.
Proof.
  pose proof (jsLength_nonneg l1). pose proof (jsLength_nonneg l2).
  rewrite splice_insert by (rewrite jsLength_app; lia).
  unfold length. rewrite Nat2Z.id.
  rewrite firstn_app, Nat.sub_diag, firstn_all. simpl. rewrite app_nil_r.
  rewrite skipn_app, skipn_all, Nat.sub_diag. reflexivity.
Qed.

End ArrayFacts.

Section ReorderFacts.

Import JsArray RowsReordering.

Context {Row : Type} `{Undefined Row}.

(** The shape of a reordering: the row taken out of its place and put back
    in at some position of what is left. *)
Lemma onRowReorder_shape (fromIndex toIndex : Z) (rows : list Row) :
  0 <= fromIndex < length rows ->
  exists l1 row l2,
    rows = (l1 ++ row :: l2)%list /\
    length l1 = fromIndex /\
    get rows fromIndex = row /\
    toSpliced rows fromIndex 1 [] = (l1 ++ l2)%list /\
    onRowReorder fromIndex toIndex rows = splice (l1 ++ l2) toIndex 0 [row].
Proof.
  intros Hf. destruct (split_at rows fromIndex Hf) as (l1 & row & l2 & -> & Hl).
  exists l1, row, l2. unfold onRowReorder. rewrite <- Hl.
  rewrite get_middle, toSpliced_middle. repeat split; reflexivity.
Qed.

Lemma firstn_length_Z (l : list Row) (k : Z) :
  0 <= k <= length l -> length (firstn (Z.to_nat k) l) = k.
Proof.
  intros Hk. unfold length in *. rewrite firstn_length_le; lia.
Qed.

(** X7. Reordering loses and invents nothing: when [fromIndex] is a
    position of the array, the result is a permutation of the rows, of the
    same length, wherever the row is dropped ([toIndex] may be any integer,
    past the end or negative). *)
Theorem onRowReorder_permutation (fromIndex toIndex : Z) (rows : list Row) :
  0 <= fromIndex < length rows ->
  Permutation (onRowReorder fromIndex toIndex rows) rows /\
  length (onRowReorder fromIndex toIndex rows) = length rows.
Proof.
  intros Hf.
  destruct (onRowReorder_shape fromIndex toIndex rows Hf)
    as (l1 & row & l2 & -> & _ & _ & _ & ->).
  destruct (splice_anywhere (l1 ++ l2) toIndex row) as (k & _ & ->).
  assert (P : Permutation
                (firstn (Z.to_nat k) (l1 ++ l2) ++ row
                   :: skipn (Z.to_nat k) (l1 ++ l2))
                (l1 ++ row :: l2)).
  { etransitivity; [symmetry; apply Permutation_middle|].
    rewrite firstn_skipn. apply Permutation_middle. }
  split; [exact P|].
  unfold length. now rewrite (Permutation_length P).
Qed.

(** X8. The moved row lands where it was dropped: with both indices
    positions of the array, the row that was at [fromIndex] is at [toIndex]
    afterwards; dropped at or past the end, it becomes the last row. *)
Theorem onRowReorder_moves_row (fromIndex toIndex : Z) (rows : list Row) :
  0 <= fromIndex < length rows ->
  0 <= toIndex ->
  get (onRowReorder fromIndex toIndex rows)
      (Z.min toIndex (length rows - 1)) = get rows fromIndex.
Proof.
  intros Hf Ht.
  destruct (onRowReorder_shape fromIndex toIndex rows Hf)
    as (l1 & row & l2 & -> & Hl & -> & _ & ->).
  rewrite jsLength_app, jsLength_cons in *.
  pose proof (jsLength_nonneg l1). pose proof (jsLength_nonneg l2).
  assert (Hm : length (l1 ++ l2) = length l1 + length l2)
    by apply jsLength_app.
  destruct (Z.le_gt_cases (length (l1 ++ l2)) toIndex) as [Hge|Hlt].
  - rewrite splice_append by exact Hge.
    replace (Z.min toIndex (length l1 + (length l2 + 1) - 1))
      with (length (l1 ++ l2)) by lia.
    apply (get_middle (l1 ++ l2) [] row).
  - rewrite splice_insert by lia.
    replace (Z.min toIndex (length l1 + (length l2 + 1) - 1))
      with toIndex by lia.
    rewrite <- (firstn_length_Z (l1 ++ l2) toIndex) at 3 by lia.
    apply get_middle.
Qed.

(** X9. The other rows keep their order: with both indices positions of
    the array, taking the moved row out of the result gives the rows
    without the row at [fromIndex]. *)
Theorem onRowReorder_keeps_other_rows (fromIndex toIndex : Z) (rows : list Row) :
  0 <= fromIndex < length rows ->
  0 <= toIndex < length rows ->
  toSpliced (onRowReorder fromIndex toIndex rows) toIndex 1 [] =
  toSpliced rows fromIndex 1 [].
Proof.
  intros Hf Ht.
  destruct (onRowReorder_shape fromIndex toIndex rows Hf)
    as (l1 & row & l2 & -> & Hl & _ & -> & ->).
  rewrite jsLength_app, jsLength_cons in *.
  assert (Hm : length (l1 ++ l2) = length l1 + length l2)
    by apply jsLength_app.
  rewrite splice_insert by lia.
  rewrite <- (firstn_length_Z (l1 ++ l2) toIndex) at 3 by lia.
  rewrite toSpliced_middle. apply firstn_skipn.
Qed.

(** X10. Dropping a row on itself changes nothing, and dropping it back
    where it came from undoes a reordering (both indices positions of the
    array). *)
Theorem onRowReorder_round_trip (fromIndex toIndex : Z) (rows : list Row) :
  0 <= fromIndex < length rows ->
  0 <= toIndex < length rows ->
  onRowReorder fromIndex fromIndex rows = rows /\
  onRowReorder toIndex fromIndex (onRowReorder fromIndex toIndex rows) = rows.
Proof.
  intros Hf Ht.
  destruct (split_at rows fromIndex Hf) as (l1 & row & l2 & -> & Hl).
  rewrite jsLength_app, jsLength_cons in *.
  assert (Hm : length (l1 ++ l2) = length l1 + length l2)
    by apply jsLength_app.
  assert (Hout : onRowReorder fromIndex toIndex (l1 ++ row :: l2) =
                 (firstn (Z.to_nat toIndex) (l1 ++ l2) ++ row
                    :: skipn (Z.to_nat toIndex) (l1 ++ l2))%list).
  { unfold onRowReorder. rewrite <- Hl, get_middle, toSpliced_middle.
    apply splice_insert. lia. }
  split.
  - unfold onRowReorder. rewrite <- Hl, get_middle, toSpliced_middle.
    apply splice_at_seam.
  - rewrite Hout.
    assert (Hk : length (firstn (Z.to_nat toIndex) (l1 ++ l2)) = toIndex)
      by (apply firstn_length_Z; lia).
    pose proof (firstn_skipn (Z.to_nat toIndex) (l1 ++ l2)) as Hwhole.
    revert Hk Hwhole.
    generalize (firstn (Z.to_nat toIndex) (l1 ++ l2)) as front.
    generalize (skipn (Z.to_nat toIndex) (l1 ++ l2)) as back.
    intros back front Hk Hwhole. unfold onRowReorder.
    rewrite <- Hk, get_middle, toSpliced_middle, Hwhole, <- Hl.
    apply splice_at_seam.
Qed.

(** X11. A [fromIndex] that is no position of the array puts [undefined]
    among the rows. At or past the end no row is taken out and the array
    grows by one; a negative one (counting from the end for [toSpliced],
    but not for the index access) takes a row out and puts [undefined] in
    its stead. *)
Theorem onRowReorder_outside_array (fromIndex toIndex : Z) (rows : list Row) :
  (length rows <= fromIndex ->
   onRowReorder fromIndex toIndex rows = splice rows toIndex 0 [undefined] /\
   length (onRowReorder fromIndex toIndex rows) = length rows + 1) /\
  (- length rows <= fromIndex < 0 ->
   exists l1 row l2,
     rows = (l1 ++ row :: l2)%list /\
     length l1 = length rows + fromIndex /\
     onRowReorder fromIndex toIndex rows =
       splice (l1 ++ l2) toIndex 0 [undefined] /\
     length (onRowReorder fromIndex toIndex rows) = length rows).
Proof.
  pose proof (jsLength_nonneg rows) as Hlen.
  assert (Hins : forall l : list Row,
             length (splice l toIndex 0 [undefined]) = length l + 1).
  { intros l. destruct (splice_anywhere l toIndex undefined) as (k & _ & ->).
    rewrite jsLength_app, jsLength_cons, Z.add_assoc, <- jsLength_app.
    now rewrite firstn_skipn. }
  split.
  - intros Hf. unfold onRowReorder.
    rewrite get_outside by lia. rewrite toSpliced_beyond by lia.
    split; [reflexivity|apply Hins].
  - intros Hf.
    destruct (split_at rows (length rows + fromIndex)) as (l1 & row & l2 & E & Hl);
      [lia|].
    exists l1, row, l2. split; [exact E|]. split; [exact Hl|].
    assert (Hdrop : toSpliced rows fromIndex 1 [] = (l1 ++ l2)%list).
    { rewrite <- (toSpliced_middle l1 l2 row), <- E, Hl.
      unfold toSpliced, actualStart.
      destruct (Z.ltb_spec fromIndex 0); [|lia].
      destruct (Z.ltb_spec (length rows + fromIndex) 0); [lia|].
      replace (Z.max (length rows + fromIndex) 0)
        with (Z.min (length rows + fromIndex) (length rows)) by lia.
      reflexivity. }
    unfold onRowReorder. rewrite get_outside by lia. rewrite Hdrop.
    split; [reflexivity|].
    rewrite Hins, E, !jsLength_app, jsLength_cons. lia.
Qed.

End ReorderFacts.

(** ** The columns of MillionCells *)

Section MillionCellsFacts.

Import MillionCells.

Context {R : Type} (renderCoordinates : R).

Lemma String_of_index_injective (i j : nat) :
  String_of_index i = String_of_index j -> i = j.
Proof.
  unfold String_of_index. intros E.
  assert (Hnil : forall n, Nat.to_uint n <> Decimal.Nil).
  { intros n. rewrite <- (Unsigned.of_to n) at 1.
    rewrite Unsigned.to_of. apply DecimalFacts.unorm_nonnil. }
  apply (f_equal NilZero.uint_of_string) in E.
  rewrite !NilZero.usu in E by apply Hnil.
  injection E as E. now apply Unsigned.to_uint_inj.
Qed.

(** The column the loop pushes at index [i]. *)
Lemma pushColumn_fold (indices : list nat) (acc : list (Column R)) :
  fold_left (pushColumn renderCoordinates) indices acc =
  (acc ++ map (fun i => {| key := String_of_index i;
                           name := String_of_index i;
                           frozen := (i <? 5)%nat;
                           width := 80;
                           resizable := true;
                           renderCell := renderCoordinates |}) indices)%list.
Proof.
  revert acc. induction indices as [|i rest IH]; intros acc; simpl.
  - now rewrite app_nil_r.
  - rewrite IH. unfold pushColumn. now rewrite <- app_assoc.
Qed.

Lemma frozen_prefix (start bound : nat) :
  map (fun i => (i <? 5)%nat) (seq start bound) =
  (repeat true (Nat.min (5 - start) bound)
     ++ repeat false (bound - (5 - start)))%list.
Proof.
  revert start. induction bound as [|n IH]; intros start; cbn [seq map].
  - now rewrite Nat.min_0_r, Nat.sub_0_l.
  - rewrite IH. destruct (Nat.ltb_spec start 5).
    + replace (Nat.min (5 - start) (S n))
        with (S (Nat.min (5 - S start) n)) by lia.
      replace (S n - (5 - start))%nat with (n - (5 - S start))%nat by lia.
      reflexivity.
    + replace (Nat.min (5 - start) (S n)) with 0%nat by lia.
      replace (Nat.min (5 - S start) n) with 0%nat by lia.
      replace (S n - (5 - start))%nat with (S (n - (5 - S start))) by lia.
      reflexivity.
Qed.

(** X12. The columns the loop builds, for any bound and so for the
    route's thousand: one column per index, keyed and named by the decimal
    digits of its index, so that no two columns share a key; the frozen
    columns are the first five (fewer under a smaller bound) and no other;
    and the thousand rows and columns make a million cells. *)
Theorem MillionCells_columns (bound : nat) :
  let columns := columnsUpTo renderCoordinates bound in
  List.length columns = bound /\
  map key columns = map String_of_index (seq 0 bound) /\
  map name columns = map key columns /\
  NoDup (map key columns) /\
  map frozen columns =
    (repeat true (Nat.min 5 bound) ++ repeat false (bound - 5))%list /\
  Z.of_nat (List.length rows)
    * Z.of_nat (List.length (MillionCells.columns renderCoordinates))
  = 1000000.
Proof.
  assert (E : forall n,
             columnsUpTo renderCoordinates n =
             map (fun i => {| key := String_of_index i;
                              name := String_of_index i;
                              frozen := (i <? 5)%nat;
                              width := 80;
                              resizable := true;
                              renderCell := renderCoordinates |}) (seq 0 n)).
  { intros n. unfold columnsUpTo. now rewrite pushColumn_fold. }
  cbv zeta. unfold MillionCells.columns, rows.
  rewrite !E, !map_map. cbn [key name frozen].
  rewrite !length_map, !length_seq.
  split; [reflexivity|]. split; [reflexivity|]. split; [reflexivity|].
  split; [|split].
  - apply Injective_map_NoDup; [|apply seq_NoDup].
    intros i j. apply String_of_index_injective.
  - apply (frozen_prefix 0 bound).
  - reflexivity.
Qed.

End MillionCellsFacts.

(** ** Sorting and the summary row of CommonFeatures *)

Section CommonFeaturesFacts.

Import CommonFeatures.

Context `{Numbers}.

(** X13. [getComparator] knows every column of the grid and nothing
    else: it returns a comparator for each key [getColumns] declares, and
    for every other key it throws the error naming that key. *)
Theorem getComparator_supports_exactly_the_columns :
  Forall (fun key => exists comparator, getComparator key = inr comparator)
         columnKeys /\
  (forall sortColumn : string,
      ~ In sortColumn columnKeys ->
      getComparator sortColumn =
      inl ("unsupported sortColumn: " ++ doubleQuote ++ sortColumn
             ++ doubleQuote)).
Proof.
  split.
  - unfold columnKeys. repeat constructor; eexists; reflexivity.
  - intros sortColumn Hnot. unfold getComparator, switchCase.
    repeat not_this_label Hnot. reflexivity.
Qed.

(** X14. The callback of [toSorted] orders by the first sort column on
    which the two rows differ. When it returns, either every column ties
    and the result is zero, or the columns before some column tie and the
    result is that column's non-zero comparison, negated when the column is
    descending. When it throws, the columns before some column tie and that
    column's key is the unsupported one: a bad key later in the list goes
    unnoticed for rows an earlier column tells apart. *)
Theorem compareRows_first_difference
  (sortColumns : list SortColumn) (a b : Row) :
  match compareRows sortColumns a b with
  | inr result =>
      (Forall (tied a b) sortColumns /\ result = literal 0) \/
      (exists before sort after comparator,
          sortColumns = (before ++ sort :: after)%list /\
          Forall (tied a b) before /\
          getComparator (columnKey sort) = inr comparator /\
          isZero (comparator a b) = false /\
          result = match direction sort with
                   | ASC => comparator a b
                   | DESC => negate (comparator a b)
                   end)
  | inl error =>
      exists before sort after,
        sortColumns = (before ++ sort :: after)%list /\
        Forall (tied a b) before /\
        getComparator (columnKey sort) = inl error
  end.
Proof.
  induction sortColumns as [|sort rest IH]; cbn [compareRows].
  - left. split; [constructor|reflexivity].
  - destruct (getComparator (columnKey sort)) as [error|comparator] eqn:Ec.
    + exists [], sort, rest.
      split; [reflexivity|]. split; [constructor|exact Ec].
    + destruct (isZero (comparator a b)) eqn:Ez; cbn [negb].
      * assert (Ht : tied a b sort) by (exists comparator; split; assumption).
        destruct (compareRows rest a b) as [error|result].
        -- destruct IH as (before & s & after & -> & Hb & Hs).
           exists (sort :: before), s, after.
           split; [reflexivity|]. split; [constructor; assumption|exact Hs].
        -- destruct IH as [[Hall ->]|(before & s & after & cmp & -> & Hb & Hrest)].
           ++ left. split; [constructor; assumption|reflexivity].
           ++ right. exists (sort :: before), s, after, cmp.
              split; [reflexivity|]. split; [constructor; assumption|exact Hrest].
      * right. exists [], sort, rest, comparator.
        split; [reflexivity|]. split; [constructor|].
        split; [exact Ec|]. split; [exact Ez|reflexivity].
Qed.

Lemma filter_length_all (rows : list Row) :
  (List.length (filter (fun r => available r) rows) <= List.length rows)%nat /\
  (List.length (filter (fun r => available r) rows) =? List.length rows)%nat =
    forallb (fun r => available r) rows.
Proof.
  induction rows as [|r rest [IHle IHeq]]; [split; reflexivity|].
  cbn [filter forallb]. destruct (available r); cbn [List.length andb].
  - split; [lia|exact IHeq].
  - split; [lia|]. apply Nat.eqb_neq. lia.
Qed.

(** X15. The summary of the column "available". [summaryRows] is one row
    whose [yesCount] is at most its [totalCount]; for it the cell shows
    "NaN%" when the grid has no rows, and else a whole percentage between
    0 and 100 that is 100 exactly when every row is available. *)
Theorem summary_percentage (rows : list Row) :
  exists row,
    summaryRows rows = [row] /\
    totalCount row = Z.of_nat (List.length rows) /\
    0 <= yesCount row <= totalCount row /\
    match rows with
    | [] => renderSummaryCell row = "NaN% ✔️"
    | _ :: _ =>
        exists percent,
          0 <= percent <= 100 /\
          (percent =? 100) = forallb (fun r => available r) rows /\
          renderSummaryCell row =
            NilZero.string_of_int (Z.to_int percent) ++ "% ✔️"
    end.
Proof.
  destruct (filter_length_all rows) as [Hle Hall].
  eexists. split; [reflexivity|]. cbn [totalCount yesCount].
  split; [reflexivity|]. split; [lia|].
  destruct rows as [|r rest]; [reflexivity|].
  set (yes := Z.of_nat (List.length (filter (fun r => available r) (r :: rest)))) in *.
  set (total := Z.of_nat (List.length (r :: rest))) in *.
  assert (Ht : 0 < total) by (subst total; cbn [List.length]; lia).
  assert (Hy : 0 <= yes <= total) by (subst yes total; lia).
  exists ((100 * yes) / total). split; [|split].
  - split; [apply Z.div_pos; lia|].
    apply Z.div_le_upper_bound; lia.
  - rewrite <- Hall.
    destruct (Nat.eqb_spec (List.length (filter (fun r => available r) (r :: rest)))
                           (List.length (r :: rest))) as [E|E].
    + replace yes with total by (subst yes total; lia).
      rewrite Z.div_mul by lia. reflexivity.
    + apply Z.eqb_neq.
      assert ((100 * yes) / total < 100); [|lia].
      apply Z.div_lt_upper_bound; [lia|]. subst yes total. lia.
  - unfold renderSummaryCell, percentage. cbn [totalCount yesCount].
    fold yes total.
    destruct (Z.eqb_spec total 0); [lia|reflexivity].
Qed.

End CommonFeaturesFacts.

(** ** The further properties at concrete inputs *)

(** X3 at the cell whose button was focused, followed by more selected
    evaluations and a focus event that finds nothing. *)
Lemma childFocused_sticky_while_selected_witness :
  exists c' r rt',
    run [Render true; FocusIn (textCell selectedOutputs) (textCell selectedOutputs); Render true]
        focusedCell = Some c' /\
    isChildFocused (runtime c') = true /\
    render true (runtime c') = Some (r, rt') /\
    tabIndex r = -1.
Proof.
  apply (childFocused_sticky_while_selected
           blankPage [Render true; FocusIn (buttonCell selectedOutputs) (buttonCell selectedOutputs)]
           [Render true; FocusIn (textCell selectedOutputs) (textCell selectedOutputs); Render true]
           focusedCell); reflexivity.
Defined.

(** X5 at the test's cell. *)
Lemma onFocus_idempotent_witness :
  runState (theHandler {| currentTarget := buttonCell selectedOutputs |} ;;
            theHandler {| currentTarget := buttonCell selectedOutputs |})
           settledRuntime =
  runState (theHandler {| currentTarget := buttonCell selectedOutputs |})
           settledRuntime.
Proof.
  apply (onFocus_idempotent freshRuntime settledRuntime selectedOutputs
           theHandler eq_refl eq_refl).
Defined.

(** X6 at a cell selected and then deselected, whose container holds the
    button. *)
Lemma deselected_cell_ignores_focus_witness :
  run [Render true; Render false] (mount blankPage) = Some deselectedCell /\
  dispatchFocus (buttonCell selectedOutputs) deselectedCell = deselectedCell.
Proof.
  split; [reflexivity|].
  apply (deselected_cell_ignores_focus
           blankPage [Render true; Render false] deselectedCell
           (buttonCell selectedOutputs)); reflexivity.
Defined.

(** X7 at four rows, the first dropped on the third. *)
Lemma onRowReorder_permutation_witness :
  RowsReordering.onRowReorder (H := undefinedRow) 0 2 fourRows
    = ["b"; "c"; "a"; "d"] /\
  Permutation (RowsReordering.onRowReorder (H := undefinedRow) 0 2 fourRows)
              fourRows /\
  JsArray.length (RowsReordering.onRowReorder (H := undefinedRow) 0 2 fourRows)
    = JsArray.length fourRows.
Proof.
  split; [reflexivity|].
  apply (onRowReorder_permutation (H := undefinedRow) 0 2 fourRows).
  unfold JsArray.length. simpl. lia.
Defined.

(** X8 at four rows, the first dropped on the third. *)
Lemma onRowReorder_moves_row_witness :
  JsArray.get (H := undefinedRow)
    (RowsReordering.onRowReorder (H := undefinedRow) 0 2 fourRows)
    (Z.min 2 (JsArray.length fourRows - 1))
  = JsArray.get (H := undefinedRow) fourRows 0.
Proof.
  apply (onRowReorder_moves_row (H := undefinedRow) 0 2 fourRows).
  - unfold JsArray.length. simpl. lia.
  - lia.
Defined.

(** X9 at four rows, the last dropped on the second. *)
Lemma onRowReorder_keeps_other_rows_witness :
  JsArray.toSpliced
    (RowsReordering.onRowReorder (H := undefinedRow) 3 1 fourRows) 1 1 []
  = JsArray.toSpliced fourRows 3 1 [].
Proof.
  apply (onRowReorder_keeps_other_rows (H := undefinedRow) 3 1 fourRows);
    unfold JsArray.length; simpl; lia.
Defined.

(** X10 at four rows, the first dropped on the third and back. *)
Lemma onRowReorder_round_trip_witness :
  RowsReordering.onRowReorder (H := undefinedRow) 0 0 fourRows = fourRows /\
  RowsReordering.onRowReorder (H := undefinedRow) 2 0
    (RowsReordering.onRowReorder (H := undefinedRow) 0 2 fourRows) = fourRows.
Proof.
  apply (onRowReorder_round_trip (H := undefinedRow) 0 2 fourRows);
    unfold JsArray.length; simpl; lia.
Defined.

(** X11 at four rows: a row index past the end, and the index [-1]. *)
Lemma onRowReorder_outside_array_witness :
  (RowsReordering.onRowReorder (H := undefinedRow) 4 0 fourRows
     = JsArray.splice fourRows 0 0 [undefinedRow] /\
   JsArray.length (RowsReordering.onRowReorder (H := undefinedRow) 4 0 fourRows)
     = JsArray.length fourRows + 1) /\
  (exists l1 row l2,
      fourRows = (l1 ++ row :: l2)%list /\
      JsArray.length l1 = JsArray.length fourRows + -1 /\
      RowsReordering.onRowReorder (H := undefinedRow) (-1) 0 fourRows =
        JsArray.splice (l1 ++ l2) 0 0 [undefinedRow] /\
      JsArray.length
        (RowsReordering.onRowReorder (H := undefinedRow) (-1) 0 fourRows)
      = JsArray.length fourRows).
Proof.
  split.
  - apply (proj1 (onRowReorder_outside_array (H := undefinedRow) 4 0 fourRows)).
    unfold JsArray.length. simpl. lia.
  - apply (proj2 (onRowReorder_outside_array (H := undefinedRow) (-1) 0 fourRows)).
    unfold JsArray.length. simpl. lia.
Defined.

(** X13 at the key of no column. *)
Lemma getComparator_supports_exactly_the_columns_witness :
  CommonFeatures.getComparator (H := integerNumbers) "select-row" =
  inl ("unsupported sortColumn: " ++ CommonFeatures.doubleQuote ++ "select-row"
         ++ CommonFeatures.doubleQuote).
Proof.
  apply (proj2 (getComparator_supports_exactly_the_columns (H := integerNumbers))).
  unfold CommonFeatures.columnKeys. simpl.
  intros Hin. repeat (destruct Hin as [Hin|Hin]; [discriminate Hin|]).
  exact Hin.
Defined.
